(** * Geo-replication helper library (glustolibs/gluster/geo_rep_ops.py)

    A shallow embedding of the command formatters of [geo_rep_ops.py] and of
    the three Glusto services they use ([g.run], [g.run_parallel] and
    [g.log.error]), followed by the properties of the emitted command
    strings and of the values handed back to the caller. *)

From Stdlib Require Import String Ascii List ZArith Bool Permutation Lia.
Import ListNotations.

Local Open Scope string_scope.
Local Open Scope Z_scope.

(** ** Python primitives used by the module *)

Module Py.

(** The double-quote character, for the two templates that contain it. *)
Definition dq : string := String (ascii_of_nat 34) EmptyString.

(** [sub in s] on strings.  [prefix] is the Standard Library's test that
    its first argument starts its second. *)
Fixpoint str_in (sub s : string) : bool :=
  if prefix sub s then true
  else match s with
       | EmptyString => false
       | String _ s' => str_in sub s'
       end.

(** [tmpl % args] restricted to what the module uses: the conversion [%s]
    applied to [str] arguments, and the escape [%%].  [None] stands for the
    exception Python raises (too few or too many arguments, or a conversion
    that is not modelled). *)
Fixpoint fmt (tmpl : string) (args : list string) : option string :=
  match tmpl with
  | EmptyString =>
      match args with
      | [] => Some EmptyString
      | _ :: _ => None
      end
  | String c rest =>
      if Ascii.eqb c "%" then
        match rest with
        | EmptyString => None
        | String d rest' =>
            if Ascii.eqb d "s" then
              match args with
              | [] => None
              | a :: args' => option_map (append a) (fmt rest' args')
              end
            else if Ascii.eqb d "%" then
              option_map (String "%") (fmt rest' args)
            else None
        end
      else option_map (String c) (fmt rest args)
  end.

(** Truth value of an [int]. *)
Definition truthy_int (n : Z) : bool := negb (n =? 0).

End Py.

(** ** The Glusto collaborator *)

Module Glusto.

(** What [g.run] returns: (ret, out, err). *)
Definition result : Type := Z * string * string.

(** What [g.run_parallel] returns: a dict from host to result, given by
    its [items()] in iteration order. *)
Definition results : Type := list (string * result).

(** Programs over the three services.  [Raise] is an uncaught Python
    exception. *)
Inductive prog (A : Type) : Type :=
| Ret (a : A)
| Raise
| Run (host cmd : string) (k : result -> prog A)
| RunParallel (hosts : list string) (cmd : string) (k : results -> prog A)
| LogError (msg : string) (args : list string) (k : prog A).

Arguments Ret {A} a.
Arguments Raise {A}.
Arguments Run {A} host cmd k.
Arguments RunParallel {A} hosts cmd k.
Arguments LogError {A} msg args k.

Fixpoint bind {A B : Type} (p : prog A) (f : A -> prog B) : prog B :=
  match p with
  | Ret a => f a
  | Raise => Raise
  | Run h c k => Run h c (fun r => bind (k r) f)
  | RunParallel hs c k => RunParallel hs c (fun rs => bind (k rs) f)
  | LogError m a k => LogError m a (bind k f)
  end.

Definition run (host cmd : string) : prog result := Run host cmd Ret.

Definition run_parallel (hosts : list string) (cmd : string) : prog results :=
  RunParallel hosts cmd Ret.

Definition log_error (msg : string) (args : list string) : prog unit :=
  LogError msg args (Ret tt).

(** A template applied to its arguments, raising where Python does. *)
Definition format (tmpl : string) (args : list string) : prog string :=
  match Py.fmt tmpl args with
  | Some s => Ret s
  | None => Raise
  end.

(** [for x in xs: body], threading the local variables the body assigns. *)
Fixpoint for_each {X S : Type} (xs : list X) (body : X -> S -> prog S)
         (s : S) : prog S :=
  match xs with
  | [] => Ret s
  | x :: xs' => bind (body x s) (for_each xs' body)
  end.

(** *** Running a program against an executor *)

(** The remote executor: any pair of functions of the hosts, the command
    and the state of the world. *)
Record Executor (W : Type) : Type := {
  exec_run : string -> string -> W -> result * W;
  exec_run_parallel : list string -> string -> W -> results * W
}.

Arguments exec_run {W} _ _ _ _.
Arguments exec_run_parallel {W} _ _ _ _.

Inductive call : Type :=
| CallRun (host cmd : string)
| CallRunParallel (hosts : list string) (cmd : string).

(** The world, the calls made to the executor so far and the error log,
    both oldest first. *)
Record state (W : Type) : Type := {
  world : W;
  calls : list call;
  log : list (string * list string)
}.

Arguments world {W} _.
Arguments calls {W} _.
Arguments log {W} _.

Definition init {W : Type} (w : W) : state W :=
  {| world := w; calls := []; log := [] |}.

Inductive outcome (A : Type) : Type :=
| Returned (a : A)
| Raised.

Arguments Returned {A} a.
Arguments Raised {A}.

Fixpoint exec {W A : Type} (ex : Executor W) (p : prog A) (st : state W)
  : outcome A * state W :=
  match p with
  | Ret a => (Returned a, st)
  | Raise => (Raised, st)
  | Run h c k =>
      let rw := exec_run ex h c (world st) in
      exec ex (k (fst rw))
           {| world := snd rw;
              calls := calls st ++ [CallRun h c];
              log := log st |}
  | RunParallel hs c k =>
      let rw := exec_run_parallel ex hs c (world st) in
      exec ex (k (fst rw))
           {| world := snd rw;
              calls := calls st ++ [CallRunParallel hs c];
              log := log st |}
  | LogError m a k =>
      exec ex k
           {| world := world st;
              calls := calls st;
              log := log st ++ [(m, a)] |}
  end.

End Glusto.

Declare Scope prog_scope.
Delimit Scope prog_scope with prog.
Notation "x <- p ;; q" := (Glusto.bind p (fun x => q))
  (at level 61, p at next level, right associativity) : prog_scope.
Notation "' pat <- p ;; q" := (Glusto.bind p (fun x => match x with pat => q end))
  (at level 61, pat pattern, p at next level, right associativity) : prog_scope.
Notation "p ;;; q" := (Glusto.bind p (fun _ => q))
  (at level 61, right associativity) : prog_scope.

(** ** The module *)

Module GeoRepOps.

Import Py Glusto.
Local Open Scope prog_scope.

Definition georep_createpem (mnode : string) : prog result :=
  let cmd := "gluster system:: execute gsec_create" in
  run mnode cmd.

Definition georep_ssh_keygen (mnode : string) : prog bool :=
  let cmd := "echo -e " ++ dq ++ "n" ++ dq
             ++ " | ssh-keygen -f ~/.ssh/id_rsa -q -N " ++ dq ++ dq in
  '(ret, out, _) <- run mnode cmd ;;
  if truthy_int ret && negb (str_in "already exists" out)
  then Ret false
  else Ret true.

Definition georep_ssh_copyid (mnode tonode user passwd : string) : prog bool :=
  cmd <- format ("sshpass -p " ++ dq ++ "%s" ++ dq
                 ++ " ssh-copy-id -o StrictHostKeyChecking=no %s@%s")
                [passwd; user; tonode] ;;
  '(ret, _, _) <- run mnode cmd ;;
  if truthy_int ret then Ret false else Ret true.

Definition georep_groupadd (servers : list string) (groupname : string)
  : prog bool :=
  cmd <- format "groupadd %s" [groupname] ;;
  results <- run_parallel servers cmd ;;
  _rc <- for_each results
           (fun '(server, ret_value) _rc =>
              let '(retcode, _, err) := ret_value in
              if negb (retcode =? 0) && negb (str_in "already exists" err)
              then log_error "Unable to add group %s on server %s"
                             [groupname; server] ;;;
                   Ret false
              else Ret _rc)
           true ;;
  if negb _rc then Ret false else Ret true.

Definition georep_geoaccount (servers : list string)
           (groupname groupaccount : string) : prog bool :=
  cmd <- format "useradd -G %s %s" [groupname; groupaccount] ;;
  results <- run_parallel servers cmd ;;
  _rc <- for_each results
           (fun '(server, ret_value) _rc =>
              let '(retcode, _, err) := ret_value in
              if negb (retcode =? 0) && negb (str_in "already exists" err)
              then log_error "Unable to add user on %s" [server] ;;;
                   Ret false
              else Ret _rc)
           true ;;
  if negb _rc then Ret false else Ret true.

Definition georep_geoaccount_setpasswd (servers : list string)
           (groupname groupaccount passwd : string) : prog bool :=
  cmd <- format "echo %s:%s | chpasswd" [groupaccount; passwd] ;;
  results <- run_parallel servers cmd ;;
  _rc <- for_each results
           (fun '(server, ret_value) _rc =>
              let '(retcode, _, err) := ret_value in
              if negb (retcode =? 0)
              then log_error "Unable to set passwd for user %s on %s"
                             [groupaccount; server] ;;;
                   Ret false
              else Ret _rc)
           true ;;
  if negb _rc then Ret false else Ret true.

Definition georep_mountbroker_setup (mnode groupname directory : string)
  : prog result :=
  cmd <- format "gluster-mountbroker setup %s %s" [directory; groupname] ;;
  run mnode cmd.

Definition georep_mountbroker_adduser (mnode slavevol useraccount : string)
  : prog result :=
  cmd <- format "gluster-mountbroker add %s %s" [slavevol; useraccount] ;;
  run mnode cmd.

Definition georep_mountbroker_status (mnode : string) : prog result :=
  let cmd := "gluster-mountbroker status" in
  run mnode cmd.

Definition georep_set_pemkeys (mnode useraccount mastervol slavevol : string)
  : prog result :=
  cmd <- format "/usr/libexec/glusterfs/set_geo_rep_pem_keys.sh %s %s %s"
                [useraccount; mastervol; slavevol] ;;
  run mnode cmd.

(** In the seven session functions [user] defaults to [None]; the test
    [if user:] holds for a non-empty string only. *)

Definition georep_status (mnode mastervol slaveip slavevol : string)
           (user : option string) : prog result :=
  cmd <- match user with
         | Some (String _ _ as user) =>
             format "gluster volume geo-replication %s %s@%s::%s status"
                    [mastervol; user; slaveip; slavevol]
         | _ =>
             format "gluster volume geo-replication %s %s::%s status"
                    [mastervol; slaveip; slavevol]
         end ;;
  run mnode cmd.

Definition georep_create (mnode mastervol slaveip slavevol : string)
           (user : option string) (force : bool) : prog result :=
  cmd <- match user with
         | Some (String _ _ as user) =>
             if force
             then format "gluster volume geo-replication %s %s@%s::%s create push-pem force"
                         [mastervol; user; slaveip; slavevol]
             else format "gluster volume geo-replication %s %s@%s::%s create push-pem"
                         [mastervol; user; slaveip; slavevol]
         | _ =>
             if force
             then format "gluster volume geo-replication %s %s::%s create push-pem force"
                         [mastervol; slaveip; slavevol]
             else format "gluster volume geo-replication %s %s::%s create push-pem"
                         [mastervol; slaveip; slavevol]
         end ;;
  run mnode cmd.

Definition georep_config_get
           (mnode mastervol slaveip slavevol config_key : string)
  : prog result :=
  cmd <- format "gluster volume geo-replication %s %s::%s config %s"
                [mastervol; slaveip; slavevol; config_key] ;;
  run mnode cmd.

Definition georep_config_set
           (mnode mastervol slaveip slavevol config value : string)
  : prog result :=
  cmd <- format "gluster volume geo-replication %s %s::%s config %s %s"
                [mastervol; slaveip; slavevol; config; value] ;;
  run mnode cmd.

Definition georep_start (mnode mastervol slaveip slavevol : string)
           (user : option string) (force : bool) : prog result :=
  cmd <- match user with
         | Some (String _ _ as user) =>
             if force
             then format "gluster volume geo-replication %s %s@%s::%s start force"
                         [mastervol; user; slaveip; slavevol]
             else format "gluster volume geo-replication %s %s@%s::%s start"
                         [mastervol; user; slaveip; slavevol]
         | _ =>
             if force
             then format "gluster volume geo-replication %s %s::%s start force"
                         [mastervol; slaveip; slavevol]
             else format "gluster volume geo-replication %s %s::%s start"
                         [mastervol; slaveip; slavevol]
         end ;;
  run mnode cmd.

Definition georep_stop (mnode mastervol slaveip slavevol : string)
           (user : option string) (force : bool) : prog result :=
  cmd <- match user with
         | Some (String _ _ as user) =>
             if force
             then format "gluster volume geo-replication %s %s@%s::%s stop force"
                         [mastervol; user; slaveip; slavevol]
             else format "gluster volume geo-replication %s %s@%s::%s stop"
                         [mastervol; user; slaveip; slavevol]
         | _ =>
             if force
             then format "gluster volume geo-replication %s %s::%s stop force"
                         [mastervol; slaveip; slavevol]
             else format "gluster volume geo-replication %s %s::%s stop"
                         [mastervol; slaveip; slavevol]
         end ;;
  run mnode cmd.

Definition georep_pause (mnode mastervol slaveip slavevol : string)
           (user : option string) : prog result :=
  cmd <- match user with
         | Some (String _ _ as user) =>
             format "gluster volume geo-replication %s %s@%s::%s pause"
                    [mastervol; user; slaveip; slavevol]
         | _ =>
             format "gluster volume geo-replication %s %s::%s pause"
                    [mastervol; slaveip; slavevol]
         end ;;
  run mnode cmd.

Definition georep_resume (mnode mastervol slaveip slavevol : string)
           (user : option string) : prog result :=
  cmd <- match user with
         | Some (String _ _ as user) =>
             format "gluster volume geo-replication %s %s@%s::%s resume"
                    [mastervol; user; slaveip; slavevol]
         | _ =>
             format "gluster volume geo-replication %s %s::%s resume"
                    [mastervol; slaveip; slavevol]
         end ;;
  run mnode cmd.

Definition georep_delete (mnode mastervol slaveip slavevol : string)
           (user : option string) : prog result :=
  cmd <- match user with
         | Some (String _ _ as user) =>
             format "gluster volume geo-replication %s %s@%s::%s delete"
                    [mastervol; user; slaveip; slavevol]
         | _ =>
             format "gluster volume geo-replication %s %s::%s delete"
                    [mastervol; slaveip; slavevol]
         end ;;
  run mnode cmd.

End GeoRepOps.

(** ** Vocabulary of the properties *)

Import Py Glusto GeoRepOps.

(** A string occurs in another one. *)
Definition occurs_in (sub s : string) : Prop :=
  exists pre post : string, s = (pre ++ sub ++ post)%string.

(** A host's result passes a failure test, and what a fan-out loop logs
    for the results that fail it: [msg] with [margs] of the host. *)
Definition passed (failed : result -> bool) (it : string * result) : bool :=
  negb (failed (snd it)).

Definition logged (failed : result -> bool) (msg : string)
           (margs : string -> list string) (items : results)
  : list (string * list string) :=
  map (fun it => (msg, margs (fst it)))
      (filter (fun it => failed (snd it)) items).

(** What a call of a function of the module returns, the calls it makes to
    the executor and what it logs, started in world [w] with nothing called
    or logged yet. *)
Definition returned {W A : Type} (ex : Executor W) (w : W) (p : prog A)
  : outcome A :=
  fst (exec ex p (init w)).

Definition commands {W A : Type} (ex : Executor W) (w : W) (p : prog A)
  : list call :=
  calls (snd (exec ex p (init w))).

Definition errors {W A : Type} (ex : Executor W) (w : W) (p : prog A)
  : list (string * list string) :=
  log (snd (exec ex p (init w))).

(** What the executor answers to a command in world [w]. *)
Definition answer {W : Type} (ex : Executor W) (w : W) (host cmd : string)
  : result :=
  fst (exec_run ex host cmd w).

Definition answers {W : Type} (ex : Executor W) (w : W)
           (hosts : list string) (cmd : string) : results :=
  fst (exec_run_parallel ex hosts cmd w).

Definition status (r : result) : Z := fst (fst r).
Definition stdout (r : result) : string := snd (fst r).
Definition stderr (r : result) : string := snd r.

(** The seven session operations, and the words each puts after the slave
    endpoint. *)
Inductive session_op : Type :=
| OpStatus
| OpCreate (force : bool)
| OpStart (force : bool)
| OpStop (force : bool)
| OpPause
| OpResume
| OpDelete.

Definition session_call (op : session_op)
           (mnode mastervol slaveip slavevol : string) (user : option string)
  : prog result :=
  match op with
  | OpStatus => georep_status mnode mastervol slaveip slavevol user
  | OpCreate force => georep_create mnode mastervol slaveip slavevol user force
  | OpStart force => georep_start mnode mastervol slaveip slavevol user force
  | OpStop force => georep_stop mnode mastervol slaveip slavevol user force
  | OpPause => georep_pause mnode mastervol slaveip slavevol user
  | OpResume => georep_resume mnode mastervol slaveip slavevol user
  | OpDelete => georep_delete mnode mastervol slaveip slavevol user
  end.

Definition with_force (words : string) (force : bool) : string :=
  if force then (words ++ " force")%string else words.

Definition session_words (op : session_op) : string :=
  match op with
  | OpStatus => "status"
  | OpCreate force => with_force "create push-pem" force
  | OpStart force => with_force "start" force
  | OpStop force => with_force "stop" force
  | OpPause => "pause"
  | OpResume => "resume"
  | OpDelete => "delete"
  end.

(** The command of a session operation around a given slave endpoint. *)
Definition session_command (mastervol endpoint : string) (op : session_op)
  : string :=
  ("gluster volume geo-replication " ++ mastervol ++ " " ++ endpoint ++ " "
   ++ session_words op)%string.

(** The function failed on a host: the tests of the three fan-out loops. *)
Definition create_failed (r : result) : bool :=
  negb (status r =? 0) && negb (str_in "already exists" (stderr r)).

Definition setpasswd_failed (r : result) : bool :=
  negb (status r =? 0).

(** An executor that answers every command with the same result, and every
    parallel command with the given results. *)
Definition fixed_executor (r : result) (rs : results) : Executor unit :=
  {| exec_run := fun _ _ w => (r, w);
     exec_run_parallel := fun _ _ w => (rs, w) |}.

(** A program that makes one call of [g.run] on [mnode], logs nothing and
    returns the executor's answer as it is. *)
Definition pass_through (mnode : string) (p : prog result) : Prop :=
  forall (W : Type) (ex : Executor W) (w : W),
  exists cmd : string,
    exec ex p (init w) =
    (Returned (answer ex w mnode cmd),
     {| world := snd (exec_run ex mnode cmd w);
        calls := [CallRun mnode cmd];
        log := [] |}).

(** The command of [georep_ssh_keygen]. *)
Definition ssh_keygen_command : string :=
  ("echo -e " ++ dq ++ "n" ++ dq ++ " | ssh-keygen -f ~/.ssh/id_rsa -q -N "
   ++ dq ++ dq)%string.

(** The command of [georep_ssh_copyid]. *)
Definition ssh_copyid_command (tonode user passwd : string) : string :=
  ("sshpass -p " ++ dq ++ passwd ++ dq
   ++ " ssh-copy-id -o StrictHostKeyChecking=no " ++ user ++ "@" ++ tonode)%string.

(** An executor answer with a non-zero status whose stderr, and not its
    stdout, holds the words. *)
Definition keygen_stderr_answer : result :=
  (1, "", "/root/.ssh/id_rsa already exists.")%string.

(** The success policy of group and user creation, on the per-host results
    [rs] and the value [r] returned. *)
Definition create_policy (rs : results) (r : outcome bool) : Prop :=
  (Forall (fun it => status (snd it) = 0) rs -> r = Returned true)
  /\ (Forall (fun it => status (snd it) <> 0 ->
                        occurs_in "already exists" (stderr (snd it))) rs ->
      r = Returned true)
  /\ (Exists (fun it => status (snd it) <> 0
                        /\ ~ occurs_in "already exists" (stderr (snd it))) rs ->
      r = Returned false).

(** Per-host results: one success, one repeated creation, and the same with
    a refusal added. *)
Definition slaves_exempt : results :=
  [("slave1", (0, "", "")); ("slave2", (9, "", "groupadd: group already exists"))]%string.

Definition slaves_refused : results :=
  (slaves_exempt ++ [("slave3", (1, "", "Permission denied"))]%string)%list.

(** The success policy of setting the password. *)
Definition setpasswd_policy (rs : results) (r : outcome bool) : Prop :=
  (Exists (fun it => status (snd it) <> 0) rs -> r = Returned false)
  /\ (Forall (fun it => status (snd it) = 0) rs -> r = Returned true)
  /\ (r = Returned true -> Forall (fun it => status (snd it) = 0) rs).

(** The three fan-out operations with their arguments, the command each
    runs, its failure test and what it logs for a failed host. *)
Inductive fan_out_op : Type :=
| OpGroupAdd (groupname : string)
| OpGeoAccount (groupname groupaccount : string)
| OpSetPasswd (groupname groupaccount passwd : string).

Definition fan_out_call (op : fan_out_op) (servers : list string) : prog bool :=
  match op with
  | OpGroupAdd groupname => georep_groupadd servers groupname
  | OpGeoAccount groupname groupaccount =>
      georep_geoaccount servers groupname groupaccount
  | OpSetPasswd groupname groupaccount passwd =>
      georep_geoaccount_setpasswd servers groupname groupaccount passwd
  end.

Definition fan_out_command (op : fan_out_op) : string :=
  match op with
  | OpGroupAdd groupname => "groupadd " ++ groupname
  | OpGeoAccount groupname groupaccount =>
      "useradd -G " ++ groupname ++ " " ++ groupaccount
  | OpSetPasswd _ groupaccount passwd =>
      "echo " ++ groupaccount ++ ":" ++ passwd ++ " | chpasswd"
  end%string.

Definition fan_out_failed (op : fan_out_op) : result -> bool :=
  match op with
  | OpGroupAdd _ | OpGeoAccount _ _ => create_failed
  | OpSetPasswd _ _ _ => setpasswd_failed
  end.

Definition fan_out_logged (op : fan_out_op) (server : string)
  : string * list string :=
  match op with
  | OpGroupAdd groupname =>
      ("Unable to add group %s on server %s", [groupname; server])
  | OpGeoAccount _ _ =>
      ("Unable to add user on %s", [server])
  | OpSetPasswd _ groupaccount _ =>
      ("Unable to set passwd for user %s on %s", [groupaccount; server])
  end%string.

(** The per-host triples of a result mapping, and two mappings holding the
    same set of them. *)
Definition triples (rs : results) : list result := map snd rs.

Definition same_triples (rs1 rs2 : results) : Prop :=
  forall t : result, In t (triples rs1) <-> In t (triples rs2).

(** A program that returns a value, whatever the executor answers: no
    Python exception escapes it. *)
Definition returns {A : Type} (p : prog A) : Prop :=
  forall (W : Type) (ex : Executor W) (w : W),
  exists a : A, returned ex w p = Returned a.

(** The user as the session functions see it: [None] and the empty string
    are the same to [if user:]. *)
Definition effective_user (user : option string) : option string :=
  match user with
  | Some (String _ _ as u) => Some u
  | _ => None
  end.

(** The slave endpoint of a session command. *)
Definition endpoint (user : option string) (slaveip slavevol : string)
  : string :=
  match effective_user user with
  | Some u => u ++ "@" ++ slaveip ++ "::" ++ slavevol
  | None => slaveip ++ "::" ++ slavevol
  end%string.

(** No character of a string is one of the [bad] ones. *)
Fixpoint free_of (bad : ascii -> bool) (s : string) : bool :=
  match s with
  | EmptyString => true
  | String c s' => negb (bad c) && free_of bad s'
  end.

Definition is_space (c : ascii) : bool := Ascii.eqb c " ".

(** The characters that separate the parts of a session command. *)
Definition is_delim (c : ascii) : bool :=
  is_space c || Ascii.eqb c "@" || Ascii.eqb c ":".

(** Names a session command can be read back from: volumes without spaces,
    host and user without spaces, [@] and [:]. *)
Definition wf_session (mastervol slaveip slavevol : string)
           (user : option string) : bool :=
  free_of is_space mastervol
  && free_of is_delim slaveip
  && free_of is_space slavevol
  && match user with
     | Some u => free_of is_delim u
     | None => true
     end.

(** The functions that format parameters into their command, each with its
    arguments. *)
Inductive formatted_op : Type :=
| FCopyId (mnode tonode user passwd : string)
| FGroupAdd (servers : list string) (groupname : string)
| FGeoAccount (servers : list string) (groupname groupaccount : string)
| FSetPasswd (servers : list string) (groupname groupaccount passwd : string)
| FMountbrokerSetup (mnode groupname directory : string)
| FMountbrokerAddUser (mnode slavevol useraccount : string)
| FSetPemkeys (mnode useraccount mastervol slavevol : string)
| FConfigGet (mnode mastervol slaveip slavevol config_key : string)
| FConfigSet (mnode mastervol slaveip slavevol config value : string)
| FSession (op : session_op) (mnode mastervol slaveip slavevol : string)
           (user : option string).

(** The calls the function makes to the executor. *)
Definition formatted_commands {W : Type} (ex : Executor W) (w : W)
           (f : formatted_op) : list call :=
  match f with
  | FCopyId mnode tonode user passwd =>
      commands ex w (georep_ssh_copyid mnode tonode user passwd)
  | FGroupAdd servers groupname =>
      commands ex w (georep_groupadd servers groupname)
  | FGeoAccount servers groupname groupaccount =>
      commands ex w (georep_geoaccount servers groupname groupaccount)
  | FSetPasswd servers groupname groupaccount passwd =>
      commands ex w
        (georep_geoaccount_setpasswd servers groupname groupaccount passwd)
  | FMountbrokerSetup mnode groupname directory =>
      commands ex w (georep_mountbroker_setup mnode groupname directory)
  | FMountbrokerAddUser mnode slavevol useraccount =>
      commands ex w (georep_mountbroker_adduser mnode slavevol useraccount)
  | FSetPemkeys mnode useraccount mastervol slavevol =>
      commands ex w (georep_set_pemkeys mnode useraccount mastervol slavevol)
  | FConfigGet mnode mastervol slaveip slavevol config_key =>
      commands ex w
        (georep_config_get mnode mastervol slaveip slavevol config_key)
  | FConfigSet mnode mastervol slaveip slavevol config value =>
      commands ex w
        (georep_config_set mnode mastervol slaveip slavevol config value)
  | FSession op mnode mastervol slaveip slavevol user =>
      commands ex w (session_call op mnode mastervol slaveip slavevol user)
  end.

(** The call as the template spells it: its text with the parameters in
    between. *)
Definition formatted_call (f : formatted_op) : call :=
  match f with
  | FCopyId mnode tonode user passwd =>
      CallRun mnode
        ("sshpass -p " ++ dq ++ passwd ++ dq
         ++ " ssh-copy-id -o StrictHostKeyChecking=no " ++ user ++ "@"
         ++ tonode)
  | FGroupAdd servers groupname =>
      CallRunParallel servers ("groupadd " ++ groupname)
  | FGeoAccount servers groupname groupaccount =>
      CallRunParallel servers
        ("useradd -G " ++ groupname ++ " " ++ groupaccount)
  | FSetPasswd servers _ groupaccount passwd =>
      CallRunParallel servers
        ("echo " ++ groupaccount ++ ":" ++ passwd ++ " | chpasswd")
  | FMountbrokerSetup mnode groupname directory =>
      CallRun mnode
        ("gluster-mountbroker setup " ++ directory ++ " " ++ groupname)
  | FMountbrokerAddUser mnode slavevol useraccount =>
      CallRun mnode
        ("gluster-mountbroker add " ++ slavevol ++ " " ++ useraccount)
  | FSetPemkeys mnode useraccount mastervol slavevol =>
      CallRun mnode
        ("/usr/libexec/glusterfs/set_geo_rep_pem_keys.sh " ++ useraccount
         ++ " " ++ mastervol ++ " " ++ slavevol)
  | FConfigGet mnode mastervol slaveip slavevol config_key =>
      CallRun mnode
        ("gluster volume geo-replication " ++ mastervol ++ " " ++ slaveip
         ++ "::" ++ slavevol ++ " config " ++ config_key)
  | FConfigSet mnode mastervol slaveip slavevol config value =>
      CallRun mnode
        ("gluster volume geo-replication " ++ mastervol ++ " " ++ slaveip
         ++ "::" ++ slavevol ++ " config " ++ config ++ " " ++ value)
  | FSession op mnode mastervol slaveip slavevol user =>
      CallRun mnode
        (session_command mastervol (endpoint user slaveip slavevol) op)
  end%string.

(** The parameters the function gives to [%], in the order of the source:
    every [str] parameter but the node, and but the group name of the
    password-set function; the user of a session function when [if user:]
    holds. *)
Definition formatted_params (f : formatted_op) : list string :=
  match f with
  | FCopyId _ tonode user passwd => [passwd; user; tonode]
  | FGroupAdd _ groupname => [groupname]
  | FGeoAccount _ groupname groupaccount => [groupname; groupaccount]
  | FSetPasswd _ _ groupaccount passwd => [groupaccount; passwd]
  | FMountbrokerSetup _ groupname directory => [directory; groupname]
  | FMountbrokerAddUser _ slavevol useraccount => [slavevol; useraccount]
  | FSetPemkeys _ useraccount mastervol slavevol =>
      [useraccount; mastervol; slavevol]
  | FConfigGet _ mastervol slaveip slavevol config_key =>
      [mastervol; slaveip; slavevol; config_key]
  | FConfigSet _ mastervol slaveip slavevol config value =>
      [mastervol; slaveip; slavevol; config; value]
  | FSession _ _ mastervol slaveip slavevol user =>
      match effective_user user with
      | Some u => [mastervol; u; slaveip; slavevol]
      | None => [mastervol; slaveip; slavevol]
      end
  end.

Definition command_of (c : call) : string :=
  match c with
  | CallRun _ cmd => cmd
  | CallRunParallel _ cmd => cmd
  end.

(** The plaintext of a group name that the password-set operation is given
    and does not use. *)
Definition unused_groupname : string := "GROUPNAME".

(** ** Facts about the Python primitives *)

Module PyFacts.

Import Py.

Lemma append_assoc (a b c : string) : ((a ++ b) ++ c = a ++ (b ++ c))%string.
Proof.
  induction a as [|x a IH]; cbn; [reflexivity | now rewrite IH].
Qed.

Lemma append_empty_r (a : string) : (a ++ "" = a)%string.
Proof.
  induction a as [|x a IH]; cbn; [reflexivity | now rewrite IH].
Qed.

Lemma prefix_append (a b : string) : prefix a (a ++ b) = true.
Proof.
  induction a as [|x a IH]; cbn.
  - now destruct b.
  - destruct (ascii_dec x x) as [_|ne]; [exact IH | now elim ne].
Qed.

Lemma prefix_split (a s : string) :
  prefix a s = true -> exists post, s = (a ++ post)%string.
Proof.
  revert a; induction s as [|y s IH]; intros [|x a] H; cbn in H.
  - now exists ""%string.
  - discriminate.
  - now exists (String y s).
  - destruct (ascii_dec x y) as [->|]; [|discriminate].
    destruct (IH _ H) as [post ->]. now exists post.
Qed.

Lemma str_in_append (sub pre post : string) :
  str_in sub (pre ++ sub ++ post) = true.
Proof.
  induction pre as [|x pre IH].
  - cbn [append]. destruct (sub ++ post)%string eqn:E; cbn [str_in];
      rewrite <- E, prefix_append; reflexivity.
  - cbn [append str_in]. rewrite IH. now destruct (prefix _ _).
Qed.

Lemma str_in_split (sub s : string) :
  str_in sub s = true -> occurs_in sub s.
Proof.
  induction s as [|y s IH]; cbn [str_in]; intros H.
  - destruct (prefix sub "") eqn:P; [|discriminate].
    destruct (prefix_split _ _ P) as [post ->]. now exists ""%string, post.
  - destruct (prefix sub (String y s)) eqn:P.
    + destruct (prefix_split _ _ P) as [post ->]. now exists ""%string, post.
    + destruct (IH H) as (pre & post & ->). now exists (String y pre), post.
Qed.

(** [str_in] decides occurrence. *)
Lemma str_in_spec (sub s : string) : str_in sub s = true <-> occurs_in sub s.
Proof.
  split; [apply str_in_split |].
  intros (pre & post & ->). apply str_in_append.
Qed.

Lemma str_in_false (sub s : string) : str_in sub s = false <-> ~ occurs_in sub s.
Proof.
  rewrite <- str_in_spec. now destruct (str_in sub s).
Qed.

(** A successful [%] leaves every argument in the result as it is. *)
Lemma fmt_occurs (n : nat) :
  forall tmpl args s, (String.length tmpl <= n)%nat ->
    fmt tmpl args = Some s ->
    forall a, In a args -> occurs_in a s.
Proof.
  induction n as [|n IH]; intros tmpl args s Hn H a Ha.
  - destruct tmpl; [|cbn in Hn; lia].
    cbn in H. destruct args; [contradiction | discriminate].
  - destruct tmpl as [|c rest]; cbn [fmt] in H.
    + destruct args; [contradiction | discriminate].
    + cbn in Hn. destruct (Ascii.eqb c "%").
      * destruct rest as [|d rest']; [discriminate|]. cbn in Hn.
        destruct (Ascii.eqb d "s").
        -- destruct args as [|a0 args']; [discriminate|].
           destruct (fmt rest' args') as [s'|] eqn:E; [|discriminate].
           injection H as <-. destruct Ha as [->|Ha].
           ++ now exists ""%string, s'.
           ++ destruct (IH rest' args' s' ltac:(lia) E a Ha) as (pre & post & ->).
              exists (a0 ++ pre)%string, post. now rewrite append_assoc.
        -- destruct (Ascii.eqb d "%"); [|discriminate].
           destruct (fmt rest' args) as [s'|] eqn:E; [|discriminate].
           injection H as <-.
           destruct (IH rest' args s' ltac:(lia) E a Ha) as (pre & post & ->).
           now exists (String "%" pre), post.
      * destruct (fmt rest args) as [s'|] eqn:E; [|discriminate].
        injection H as <-.
        destruct (IH rest args s' ltac:(lia) E a Ha) as (pre & post & ->).
        now exists (String c pre), post.
Qed.

End PyFacts.

(** ** Facts about running programs *)

Module GlustoFacts.

Import Glusto.

Section Exec.

Context {W : Type} (ex : Executor W).

Lemma exec_bind {A B : Type} (p : prog A) (f : A -> prog B) :
  forall st,
    exec ex (bind p f) st =
    match exec ex p st with
    | (Returned a, st') => exec ex (f a) st'
    | (Raised, st') => (Raised, st')
    end.
Proof.
  induction p as [a| |h c k IH|hs c k IH|m a k IH]; intros st; cbn;
    auto.
Qed.

(** The loop of the three fan-out functions: a body that logs and clears
    the flag on a failed result, and leaves the flag alone otherwise. *)
Section FanOut.

Variable failed : result -> bool.
Variable msg : string.
Variable margs : string -> list string.
Variable body : string * result -> bool -> prog bool.

Hypothesis body_eq :
  forall server ret_value _rc,
    body (server, ret_value) _rc =
    if failed ret_value
    then bind (log_error msg (margs server)) (fun _ => Ret false)
    else Ret _rc.

Lemma exec_fan_out (items : results) :
  forall _rc st,
    exec ex (for_each items body _rc) st =
    (Returned (_rc && forallb (passed failed) items),
     {| world := world st;
        calls := calls st;
        log := log st ++ logged failed msg margs items |}).
Proof.
  induction items as [|[server rv] items IH]; intros rc st.
  - cbn. rewrite andb_true_r, app_nil_r. now destruct st.
  - cbn [for_each]. rewrite exec_bind, body_eq.
    unfold passed, logged. cbn [forallb filter snd fst].
    destruct (failed rv); cbn.
    + rewrite IH. cbn. rewrite andb_false_r, <- app_assoc. reflexivity.
    + rewrite IH. reflexivity.
Qed.

End FanOut.

End Exec.

End GlustoFacts.

(** ** Properties of the module *)

Import PyFacts GlustoFacts.

(** Normalising a command built by [%] and by [++]. *)
Ltac golden :=
  repeat (cbn; rewrite ?append_assoc, ?append_empty_r); try reflexivity.

Lemma commands_session_user {W : Type} (ex : Executor W) (w : W)
      (op : session_op) (mnode mastervol slaveip slavevol : string)
      (c : ascii) (u : string) :
  commands ex w
    (session_call op mnode mastervol slaveip slavevol (Some (String c u))) =
  [CallRun mnode
     (session_command mastervol
        (String c u ++ "@" ++ slaveip ++ "::" ++ slavevol) op)].
Proof.
  unfold commands, session_command.
  destruct op as [|[]|[]|[]| | |]; golden.
Qed.

Lemma commands_session_root {W : Type} (ex : Executor W) (w : W)
      (op : session_op) (mnode mastervol slaveip slavevol : string)
      (user : option string) :
  user = None \/ user = Some ""%string ->
  commands ex w (session_call op mnode mastervol slaveip slavevol user) =
  [CallRun mnode
     (session_command mastervol (slaveip ++ "::" ++ slavevol) op)].
Proof.
  unfold commands, session_command.
  intros [-> | ->]; destruct op as [|[]|[]|[]| | |]; golden.
Qed.

(** *** Session commands *)

(** C1: for each of the seven session operations (status, create, start,
    stop, pause, resume, delete) the command handed to the executor is
    [gluster volume geo-replication <master> <endpoint> <words>], where the
    slave endpoint is [<user>@<slavehost>::<slavevol>] when a non-empty user
    is supplied and [<slavehost>::<slavevol>] when the user is omitted; the
    same substitution for all seven. *)
Theorem session_slave_endpoint {W : Type} (ex : Executor W) (w : W)
        (op : session_op) (mnode mastervol slaveip slavevol : string) :
  (forall user : string, user <> ""%string ->
     commands ex w
       (session_call op mnode mastervol slaveip slavevol (Some user)) =
     [CallRun mnode
        (session_command mastervol
           (user ++ "@" ++ slaveip ++ "::" ++ slavevol) op)])
  /\ commands ex w (session_call op mnode mastervol slaveip slavevol None) =
     [CallRun mnode
        (session_command mastervol (slaveip ++ "::" ++ slavevol) op)].
Proof.
  split.
  - intros [|c u] Hu; [now elim Hu | apply commands_session_user].
  - apply commands_session_root. now left.
Qed.

Lemma session_slave_endpoint_witness :
  commands (fixed_executor (0, "", "")%string []) tt
    (georep_stop "master1" "mvol" "slave1" "svol" (Some "geoaccount") true)
  = [CallRun "master1"
       "gluster volume geo-replication mvol geoaccount@slave1::svol stop force"].
Proof.
  refine (proj1 (session_slave_endpoint
                   (fixed_executor (0, "", "")%string []) tt (OpStop true)
                   "master1" "mvol" "slave1" "svol") "geoaccount" _).
  discriminate.
Defined.

(** C2: creating a session for master volume [mvol], slave host [10.0.0.5],
    slave volume [svol] and user [geoaccount] with force hands the executor
    exactly [gluster volume geo-replication mvol geoaccount@10.0.0.5::svol
    create push-pem force]; without force the trailing [ force] is absent,
    and without a user the [geoaccount@] prefix is absent. *)
Theorem georep_create_golden {W : Type} (ex : Executor W) (w : W)
        (mnode : string) :
  commands ex w
    (georep_create mnode "mvol" "10.0.0.5" "svol" (Some "geoaccount") true)
  = [CallRun mnode
       "gluster volume geo-replication mvol geoaccount@10.0.0.5::svol create push-pem force"]
  /\ commands ex w
       (georep_create mnode "mvol" "10.0.0.5" "svol" (Some "geoaccount") false)
     = [CallRun mnode
          "gluster volume geo-replication mvol geoaccount@10.0.0.5::svol create push-pem"]
  /\ commands ex w
       (georep_create mnode "mvol" "10.0.0.5" "svol" None true)
     = [CallRun mnode
          "gluster volume geo-replication mvol 10.0.0.5::svol create push-pem force"]
  /\ commands ex w
       (georep_create mnode "mvol" "10.0.0.5" "svol" None false)
     = [CallRun mnode
          "gluster volume geo-replication mvol 10.0.0.5::svol create push-pem"].
Proof.
  repeat split; reflexivity.
Qed.

(** C8: for every operation taking the optional user (status, create, start,
    stop, pause, resume, delete), the empty string as user gives the same
    command as no user: the root form [<slavehost>::<slavevol>], without
    [@]. *)
Theorem session_empty_user_is_root {W : Type} (ex : Executor W) (w : W)
        (op : session_op) (mnode mastervol slaveip slavevol : string) :
  commands ex w
    (session_call op mnode mastervol slaveip slavevol (Some ""%string))
  = commands ex w (session_call op mnode mastervol slaveip slavevol None)
  /\ commands ex w
       (session_call op mnode mastervol slaveip slavevol (Some ""%string))
     = [CallRun mnode
          (session_command mastervol (slaveip ++ "::" ++ slavevol) op)].
Proof.
  rewrite !commands_session_root by auto. split; reflexivity.
Qed.

(** *** Single-host operations *)

(** C6: every single-host operation listed as returning a pass-through
    triple (shared auth material, mountbroker setup, add and status, push
    session keys, session status, create, config get, config set, start,
    stop, pause, resume, delete) returns exactly the (status, stdout, stderr)
    the executor returned. *)
Theorem single_host_pass_through
        (mnode groupname directory slavevol useraccount mastervol slaveip
           config_key config value : string)
        (op : session_op) (user : option string) :
  pass_through mnode (georep_createpem mnode)
  /\ pass_through mnode (georep_mountbroker_setup mnode groupname directory)
  /\ pass_through mnode (georep_mountbroker_adduser mnode slavevol useraccount)
  /\ pass_through mnode (georep_mountbroker_status mnode)
  /\ pass_through mnode
       (georep_set_pemkeys mnode useraccount mastervol slavevol)
  /\ pass_through mnode
       (georep_config_get mnode mastervol slaveip slavevol config_key)
  /\ pass_through mnode
       (georep_config_set mnode mastervol slaveip slavevol config value)
  /\ pass_through mnode
       (session_call op mnode mastervol slaveip slavevol user).
Proof.
  repeat split; intros W ex w;
    try (eexists; reflexivity).
  destruct user as [[|c u]|]; destruct op as [|[]|[]|[]| | |];
    eexists; reflexivity.
Qed.

Lemma exec_georep_ssh_copyid {W : Type} (ex : Executor W) (w : W)
      (mnode tonode user passwd : string) :
  let cmd := ssh_copyid_command tonode user passwd in
  exec ex (georep_ssh_copyid mnode tonode user passwd) (init w) =
  (Returned (status (answer ex w mnode cmd) =? 0),
   {| world := snd (exec_run ex mnode cmd w);
      calls := [CallRun mnode cmd];
      log := [] |}).
Proof.
  unfold georep_ssh_copyid, ssh_copyid_command, answer, status, truthy_int.
  golden.
  destruct (exec_run ex mnode _ w) as [[[ret out] err] w']; cbn.
  now destruct (ret =? 0).
Qed.

(** C7: propagating the public key to a peer returns a boolean derived from
    the exit status alone: true if and only if the status is 0, whatever
    stdout and stderr hold. *)
Theorem ssh_copyid_status_only {W : Type} (ex : Executor W) (w : W)
        (mnode tonode user passwd : string) :
  let r := answer ex w mnode (ssh_copyid_command tonode user passwd) in
  returned ex w (georep_ssh_copyid mnode tonode user passwd)
  = Returned (status r =? 0)
  /\ (returned ex w (georep_ssh_copyid mnode tonode user passwd)
      = Returned true <-> status r = 0).
Proof.
  unfold returned. rewrite exec_georep_ssh_copyid. cbn.
  split; [reflexivity|].
  rewrite <- Z.eqb_eq.
  split; [now intros [= ->] | now intros ->].
Qed.

Lemma exec_georep_ssh_keygen {W : Type} (ex : Executor W) (w : W)
      (mnode : string) :
  let r := answer ex w mnode ssh_keygen_command in
  exec ex (georep_ssh_keygen mnode) (init w) =
  (Returned ((status r =? 0) || str_in "already exists" (stdout r)),
   {| world := snd (exec_run ex mnode ssh_keygen_command w);
      calls := [CallRun mnode ssh_keygen_command];
      log := [] |}).
Proof.
  unfold georep_ssh_keygen, ssh_keygen_command, answer, status, stdout,
    truthy_int.
  cbn.
  destruct (exec_run ex mnode _ w) as [[[ret out] err] w']; cbn.
  now destruct (ret =? 0), (str_in _ out).
Qed.

(** *** Fan-out operations *)

Section FanOutRuns.

Context {W : Type} (ex : Executor W) (w : W).

Ltac fan_out failed' msg' margs' :=
  rewrite exec_bind;
  rewrite exec_fan_out
    with (failed := failed') (msg := msg') (margs := margs');
  [ cbn; rewrite ?andb_true_l;
    match goal with
    | |- context [negb (forallb ?f ?l)] => destruct (forallb f l)
    end; reflexivity
  | intros server [[retcode out] err] _rc; reflexivity ].

Lemma exec_georep_groupadd (servers : list string) (groupname : string) :
  let cmd := ("groupadd " ++ groupname)%string in
  exec ex (georep_groupadd servers groupname) (init w) =
  (Returned (forallb (passed create_failed) (answers ex w servers cmd)),
   {| world := snd (exec_run_parallel ex servers cmd w);
      calls := [CallRunParallel servers cmd];
      log := logged create_failed "Unable to add group %s on server %s"
               (fun server => [groupname; server])
               (answers ex w servers cmd) |}).
Proof.
  unfold georep_groupadd, answers. golden.
  fan_out create_failed "Unable to add group %s on server %s"%string
          (fun server : string => [groupname; server]).
Qed.

Lemma exec_georep_geoaccount (servers : list string)
      (groupname groupaccount : string) :
  let cmd := ("useradd -G " ++ groupname ++ " " ++ groupaccount)%string in
  exec ex (georep_geoaccount servers groupname groupaccount) (init w) =
  (Returned (forallb (passed create_failed) (answers ex w servers cmd)),
   {| world := snd (exec_run_parallel ex servers cmd w);
      calls := [CallRunParallel servers cmd];
      log := logged create_failed "Unable to add user on %s"
               (fun server => [server])
               (answers ex w servers cmd) |}).
Proof.
  unfold georep_geoaccount, answers. golden.
  fan_out create_failed "Unable to add user on %s"%string
          (fun server : string => [server]).
Qed.

Lemma exec_georep_geoaccount_setpasswd (servers : list string)
      (groupname groupaccount passwd : string) :
  let cmd := ("echo " ++ groupaccount ++ ":" ++ passwd ++ " | chpasswd")%string in
  exec ex (georep_geoaccount_setpasswd servers groupname groupaccount passwd)
       (init w) =
  (Returned (forallb (passed setpasswd_failed) (answers ex w servers cmd)),
   {| world := snd (exec_run_parallel ex servers cmd w);
      calls := [CallRunParallel servers cmd];
      log := logged setpasswd_failed "Unable to set passwd for user %s on %s"
               (fun server => [groupaccount; server])
               (answers ex w servers cmd) |}).
Proof.
  unfold georep_geoaccount_setpasswd, answers. golden.
  fan_out setpasswd_failed "Unable to set passwd for user %s on %s"%string
          (fun server : string => [groupaccount; server]).
Qed.

End FanOutRuns.

(** *** Key generation *)

(** C5, as stated, fails: with a non-zero status and [already exists] in
    stderr only, the function returns false. *)
Lemma ssh_keygen_stderr_counterexample :
  (status keygen_stderr_answer = 0
   \/ occurs_in "already exists" (stderr keygen_stderr_answer)
   \/ occurs_in "already exists" (stdout keygen_stderr_answer))
  /\ returned (fixed_executor keygen_stderr_answer []) tt
       (georep_ssh_keygen "master1")
     = Returned false.
Proof.
  split; [|reflexivity].
  right; left. apply str_in_spec. reflexivity.
Qed.

(** C5, amended: ensuring the local key pair returns true if and only if the
    exit status is 0 or stdout contains [already exists]; stderr is not
    looked at.  So a non-zero status with [already exists] in stdout gives
    true, and any other non-zero status gives false. *)
Theorem ssh_keygen_stdout_only {W : Type} (ex : Executor W) (w : W)
        (mnode : string) :
  let r := answer ex w mnode ssh_keygen_command in
  returned ex w (georep_ssh_keygen mnode)
  = Returned ((status r =? 0) || str_in "already exists" (stdout r))
  /\ (returned ex w (georep_ssh_keygen mnode) = Returned true
      <-> status r = 0 \/ occurs_in "already exists" (stdout r))
  /\ (returned ex w (georep_ssh_keygen mnode) = Returned false
      <-> status r <> 0 /\ ~ occurs_in "already exists" (stdout r)).
Proof.
  unfold returned. rewrite exec_georep_ssh_keygen. cbv zeta. cbn [fst].
  set (r := answer ex w mnode ssh_keygen_command).
  rewrite <- str_in_spec, <- Z.eqb_eq.
  destruct (status r =? 0), (str_in "already exists" (stdout r)); cbn;
    intuition (try discriminate; try congruence).
Qed.

(** *** Fan-out reduction *)

Lemma passed_create (it : string * result) :
  passed create_failed it = true
  <-> status (snd it) = 0 \/ occurs_in "already exists" (stderr (snd it)).
Proof.
  unfold passed, create_failed.
  rewrite <- str_in_spec, <- Z.eqb_eq.
  destruct (status (snd it) =? 0), (str_in _ (stderr (snd it))); cbn;
    intuition discriminate.
Qed.

Lemma passed_setpasswd (it : string * result) :
  passed setpasswd_failed it = true <-> status (snd it) = 0.
Proof.
  unfold passed, setpasswd_failed.
  rewrite <- Z.eqb_eq. now destruct (status (snd it) =? 0).
Qed.

Lemma create_policy_forallb (rs : results) :
  create_policy rs (Returned (forallb (passed create_failed) rs)).
Proof.
  repeat split.
  - intros H. f_equal. apply forallb_forall. intros it Hin.
    apply passed_create. left. revert it Hin. now apply Forall_forall.
  - intros H. f_equal. apply forallb_forall. intros it Hin.
    apply passed_create. rewrite Forall_forall in H.
    destruct (Z.eq_dec (status (snd it)) 0); [now left | right; auto].
  - intros H. f_equal. apply Exists_exists in H as (it & Hin & Hne & Hno).
    destruct (forallb _ rs) eqn:E; [|reflexivity].
    rewrite forallb_forall in E. apply E, passed_create in Hin. tauto.
Qed.

(** C3: group creation and user creation on many hosts return true when
    every host exits with status 0, still true when every host that fails
    has [already exists] in its stderr, and false as soon as one host fails
    with a stderr that does not contain it. *)
Theorem fan_out_create_policy {W : Type} (ex : Executor W) (w : W)
        (servers : list string) (groupname groupaccount : string) :
  create_policy
    (answers ex w servers ("groupadd " ++ groupname))
    (returned ex w (georep_groupadd servers groupname))
  /\ create_policy
       (answers ex w servers
          ("useradd -G " ++ groupname ++ " " ++ groupaccount))
       (returned ex w (georep_geoaccount servers groupname groupaccount)).
Proof.
  unfold returned.
  rewrite exec_georep_groupadd, exec_georep_geoaccount. cbn [fst].
  split; apply create_policy_forallb.
Qed.

Lemma fan_out_create_policy_witness :
  returned (fixed_executor (0, "", "")%string slaves_exempt) tt
    (georep_groupadd ["slave1"; "slave2"]%string "geogroup") = Returned true
  /\ returned (fixed_executor (0, "", "")%string slaves_refused) tt
       (georep_geoaccount ["slave1"; "slave2"; "slave3"]%string
          "geogroup" "geoaccount") = Returned false.
Proof.
  split.
  - apply (proj1 (fan_out_create_policy
                    (fixed_executor (0, "", "")%string slaves_exempt) tt
                    ["slave1"; "slave2"]%string "geogroup" "geoaccount")).
    repeat constructor; cbn; intros H; try (now elim H).
    apply str_in_spec. reflexivity.
  - apply (proj2 (fan_out_create_policy
                    (fixed_executor (0, "", "")%string slaves_refused) tt
                    ["slave1"; "slave2"; "slave3"]%string
                    "geogroup" "geoaccount")).
    do 2 apply Exists_cons_tl. apply Exists_cons_hd. cbn. split.
    + discriminate.
    + apply str_in_false. reflexivity.
Defined.

Lemma setpasswd_policy_forallb (rs : results) :
  setpasswd_policy rs (Returned (forallb (passed setpasswd_failed) rs)).
Proof.
  assert (Hall : forallb (passed setpasswd_failed) rs = true
                 <-> Forall (fun it => status (snd it) = 0) rs).
  { rewrite forallb_forall, Forall_forall.
    split; intros H it Hin; apply passed_setpasswd; auto. }
  repeat split.
  - intros H. f_equal. apply Exists_exists in H as (it & Hin & Hne).
    apply not_true_is_false. intros E.
    apply Hall in E. rewrite Forall_forall in E. now elim Hne; apply E.
  - intros H. f_equal. now apply Hall.
  - intros [= H]. now apply Hall.
Qed.

(** C4: setting the password on many hosts returns false whenever a host
    reports a non-zero status, whatever its stderr says, and true only when
    all hosts exit with status 0. *)
Theorem fan_out_setpasswd_policy {W : Type} (ex : Executor W) (w : W)
        (servers : list string) (groupname groupaccount passwd : string) :
  setpasswd_policy
    (answers ex w servers
       ("echo " ++ groupaccount ++ ":" ++ passwd ++ " | chpasswd"))
    (returned ex w
       (georep_geoaccount_setpasswd servers groupname groupaccount passwd)).
Proof.
  unfold returned. rewrite exec_georep_geoaccount_setpasswd. cbn [fst].
  apply setpasswd_policy_forallb.
Qed.

Lemma fan_out_setpasswd_policy_witness :
  returned (fixed_executor (0, "", "")%string slaves_exempt) tt
    (georep_geoaccount_setpasswd ["slave1"; "slave2"]%string
       "geogroup" "geoaccount" "secret") = Returned false.
Proof.
  apply (proj1 (fan_out_setpasswd_policy
                  (fixed_executor (0, "", "")%string slaves_exempt) tt
                  ["slave1"; "slave2"]%string
                  "geogroup" "geoaccount" "secret")).
  apply Exists_cons_tl, Exists_cons_hd. cbn. discriminate.
Defined.

(** *** Every host is examined *)

Lemma exec_fan_out_call {W : Type} (ex : Executor W) (w : W)
      (op : fan_out_op) (servers : list string) :
  let rs := answers ex w servers (fan_out_command op) in
  exec ex (fan_out_call op servers) (init w) =
  (Returned (forallb (passed (fan_out_failed op)) rs),
   {| world := snd (exec_run_parallel ex servers (fan_out_command op) w);
      calls := [CallRunParallel servers (fan_out_command op)];
      log := map (fun it => fan_out_logged op (fst it))
                 (filter (fun it => fan_out_failed op (snd it)) rs) |}).
Proof.
  destruct op; cbn [fan_out_call fan_out_command fan_out_failed fan_out_logged].
  - apply exec_georep_groupadd.
  - apply exec_georep_geoaccount.
  - apply exec_georep_geoaccount_setpasswd.
Qed.

Lemma forallb_passed_triples (failed : result -> bool) (rs : results) :
  forallb (passed failed) rs = forallb (fun t => negb (failed t)) (triples rs).
Proof.
  induction rs as [|it rs IH]; cbn; [reflexivity | now rewrite IH].
Qed.

Lemma forallb_same_elements {X : Type} (f : X -> bool) (l1 l2 : list X) :
  (forall x, In x l1 <-> In x l2) -> forallb f l1 = forallb f l2.
Proof.
  intros H. apply eq_true_iff_eq. rewrite !forallb_forall.
  split; intros A x Hx; apply A, H, Hx.
Qed.

Lemma permutation_same_triples (rs1 rs2 : results) :
  Permutation rs1 rs2 -> same_triples rs1 rs2.
Proof.
  intros P t. unfold triples.
  split; apply Permutation_in; [|symmetry]; now apply Permutation_map.
Qed.

(** C10: each fan-out operation (group add, user add, password set) examines
    the result of every host, logging each failed one and stopping at none,
    and the boolean it returns depends only on the set of per-host (status,
    stdout, stderr) triples: not on the hosts' names nor on the order in
    which the mapping is iterated. *)
Theorem fan_out_examines_every_host {W1 W2 : Type}
        (ex1 : Executor W1) (ex2 : Executor W2) (w1 : W1) (w2 : W2)
        (op : fan_out_op) (servers1 servers2 : list string) :
  let rs1 := answers ex1 w1 servers1 (fan_out_command op) in
  let rs2 := answers ex2 w2 servers2 (fan_out_command op) in
  errors ex1 w1 (fan_out_call op servers1)
  = map (fun it => fan_out_logged op (fst it))
        (filter (fun it => fan_out_failed op (snd it)) rs1)
  /\ returned ex1 w1 (fan_out_call op servers1)
     = Returned (forallb (fun t => negb (fan_out_failed op t)) (triples rs1))
  /\ (same_triples rs1 rs2 ->
      returned ex1 w1 (fan_out_call op servers1)
      = returned ex2 w2 (fan_out_call op servers2))
  /\ (Permutation rs1 rs2 ->
      returned ex1 w1 (fan_out_call op servers1)
      = returned ex2 w2 (fan_out_call op servers2)).
Proof.
  intros rs1 rs2. unfold errors, returned.
  rewrite !exec_fan_out_call. cbn [fst snd log]. fold rs1 rs2.
  rewrite !forallb_passed_triples.
  repeat split.
  - intros H. f_equal. now apply forallb_same_elements.
  - intros P. f_equal.
    now apply forallb_same_elements, permutation_same_triples.
Qed.

Lemma fan_out_examines_every_host_witness :
  returned (fixed_executor (0, "", "")%string slaves_refused) tt
    (georep_groupadd ["slave1"; "slave2"; "slave3"]%string "geogroup")
  = returned (fixed_executor (0, "", "")%string (rev slaves_refused)) tt
      (georep_groupadd ["slave3"; "slave2"; "slave1"]%string "geogroup").
Proof.
  apply (proj2 (proj2 (proj2
           (fan_out_examines_every_host
              (fixed_executor (0, "", "")%string slaves_refused)
              (fixed_executor (0, "", "")%string (rev slaves_refused))
              tt tt (OpGroupAdd "geogroup")
              ["slave1"; "slave2"; "slave3"]%string
              ["slave3"; "slave2"; "slave1"]%string)))).
  apply Permutation_rev.
Defined.

(** *** Verbatim interpolation *)

Lemma formatted_commands_eq {W : Type} (ex : Executor W) (w : W)
      (f : formatted_op) :
  formatted_commands ex w f = [formatted_call f].
Proof.
  destruct f; cbn [formatted_commands formatted_call]; unfold commands.
  - now rewrite exec_georep_ssh_copyid.
  - now rewrite exec_georep_groupadd.
  - now rewrite exec_georep_geoaccount.
  - now rewrite exec_georep_geoaccount_setpasswd.
  - golden.
  - golden.
  - golden.
  - golden.
  - golden.
  - fold (commands ex w
            (session_call op mnode mastervol slaveip slavevol user)).
    destruct user as [[|c u]|]; unfold endpoint; cbn [effective_user].
    + apply commands_session_root. now right.
    + apply commands_session_user.
    + apply commands_session_root. now left.
Qed.

Lemma occurs_in_refl (a : string) : occurs_in a a.
Proof.
  exists ""%string, ""%string. cbn. now rewrite append_empty_r.
Qed.

Lemma occurs_in_head (a r : string) : occurs_in a (a ++ r).
Proof.
  now exists ""%string, r.
Qed.

Lemma occurs_in_skip (a p r : string) :
  occurs_in a r -> occurs_in a (p ++ r).
Proof.
  intros (pre & post & ->). exists (p ++ pre)%string, post.
  now rewrite append_assoc.
Qed.

Lemma occurs_in_left (a p r : string) :
  occurs_in a p -> occurs_in a (p ++ r).
Proof.
  intros (pre & post & ->). exists pre, (post ++ r)%string.
  now rewrite !append_assoc.
Qed.

(** A parameter found among the pieces a command is appended from. *)
Ltac occurs :=
  solve [ apply occurs_in_refl
        | apply occurs_in_head
        | apply occurs_in_skip; occurs
        | apply occurs_in_left; occurs ].

(** C9, as stated, fails: not all caller-supplied parameters are put into
    the command string.  The group name given to the password-set operation
    occurs nowhere in the command it runs. *)
Lemma groupname_not_in_command_counterexample :
  commands (fixed_executor (0, "", "")%string []) tt
    (georep_geoaccount_setpasswd ["slave1"]%string unused_groupname
       "geoaccount" "secret")
  = [CallRunParallel ["slave1"]%string "echo geoaccount:secret | chpasswd"]
  /\ ~ occurs_in unused_groupname "echo geoaccount:secret | chpasswd".
Proof.
  split; [reflexivity|].
  apply str_in_false. reflexivity.
Qed.

(** C9, amended: every parameter that a function formats into its command
    string is put there as it is, without quoting or escaping.  For each of
    the sixteen functions that format parameters (the seven session
    operations included) the one call handed to the executor carries the
    text of the template with the parameters in between, and each of these
    parameters occurs unchanged in it; in particular the commands of the
    propagate-public-key and password-set operations hold the plaintext
    password as a literal substring. *)
Theorem formatted_parameters_verbatim {W : Type} (ex : Executor W) (w : W) :
  (forall f : formatted_op,
      formatted_commands ex w f = [formatted_call f]
      /\ Forall (fun a => occurs_in a (command_of (formatted_call f)))
                (formatted_params f))
  /\ (forall mnode tonode user passwd : string,
       exists cmd : string,
         commands ex w (georep_ssh_copyid mnode tonode user passwd)
         = [CallRun mnode cmd]
         /\ occurs_in passwd cmd)
  /\ (forall (servers : list string) (groupname groupaccount passwd : string),
       exists cmd : string,
         commands ex w
           (georep_geoaccount_setpasswd servers groupname groupaccount passwd)
         = [CallRunParallel servers cmd]
         /\ occurs_in passwd cmd).
Proof.
  split; [|split].
  - intros f. split; [apply formatted_commands_eq|].
    destruct f; cbn [formatted_call formatted_params command_of];
      try (repeat constructor; occurs).
    unfold session_command, endpoint.
    destruct (effective_user user) as [u|]; repeat constructor; occurs.
  - intros mnode tonode user passwd. eexists. split.
    + exact (formatted_commands_eq ex w (FCopyId mnode tonode user passwd)).
    + occurs.
  - intros servers groupname groupaccount passwd. eexists. split.
    + exact (formatted_commands_eq ex w
               (FSetPasswd servers groupname groupaccount passwd)).
    + occurs.
Qed.

(** ** Further properties *)

(** *** No exception *)

Lemma commands_session {W : Type} (ex : Executor W) (w : W)
      (op : session_op) (mnode mastervol slaveip slavevol : string)
      (user : option string) :
  commands ex w (session_call op mnode mastervol slaveip slavevol user) =
  [CallRun mnode
     (session_command mastervol (endpoint user slaveip slavevol) op)].
Proof.
  destruct user as [[|c u]|]; unfold endpoint; cbn [effective_user].
  - apply commands_session_root. now right.
  - apply commands_session_user.
  - apply commands_session_root. now left.
Qed.

Lemma returns_session (op : session_op)
      (mnode mastervol slaveip slavevol : string) (user : option string) :
  returns (session_call op mnode mastervol slaveip slavevol user).
Proof.
  intros W ex w. unfold returned.
  destruct user as [[|c u]|]; destruct op as [|[]|[]|[]| | |];
    eexists; reflexivity.
Qed.

(** X1: no function of the module raises: every template has as many
    conversions as it is given arguments, so each call returns a value for
    all arguments and all executor answers. *)
Theorem no_function_raises
        (mnode tonode user passwd groupname directory slavevol useraccount
           mastervol slaveip config_key value : string)
        (servers : list string) (fop : fan_out_op) (op : session_op)
        (session_user : option string) :
  returns (georep_createpem mnode)
  /\ returns (georep_ssh_keygen mnode)
  /\ returns (georep_ssh_copyid mnode tonode user passwd)
  /\ returns (fan_out_call fop servers)
  /\ returns (georep_mountbroker_setup mnode groupname directory)
  /\ returns (georep_mountbroker_adduser mnode slavevol useraccount)
  /\ returns (georep_mountbroker_status mnode)
  /\ returns (georep_set_pemkeys mnode useraccount mastervol slavevol)
  /\ returns (georep_config_get mnode mastervol slaveip slavevol config_key)
  /\ returns
       (georep_config_set mnode mastervol slaveip slavevol config_key value)
  /\ returns
       (session_call op mnode mastervol slaveip slavevol session_user).
Proof.
  repeat split; try apply returns_session; intros W ex w; unfold returned;
    try (eexists; reflexivity).
  - rewrite exec_georep_ssh_keygen. eexists; reflexivity.
  - rewrite exec_georep_ssh_copyid. eexists; reflexivity.
  - rewrite exec_fan_out_call. eexists; reflexivity.
Qed.

(** *** Commands without parameters *)

(** X2: the three operations that take only the node run a fixed command,
    once, on that node: the shared-key creation, the mountbroker status and
    the key generation, whose command ends in two double quotes. *)
Theorem fixed_commands {W : Type} (ex : Executor W) (w : W) (mnode : string) :
  commands ex w (georep_createpem mnode)
  = [CallRun mnode "gluster system:: execute gsec_create"]
  /\ commands ex w (georep_mountbroker_status mnode)
     = [CallRun mnode "gluster-mountbroker status"]
  /\ commands ex w (georep_ssh_keygen mnode)
     = [CallRun mnode
          ("echo -e " ++ dq ++ "n" ++ dq
           ++ " | ssh-keygen -f ~/.ssh/id_rsa -q -N " ++ dq ++ dq)].
Proof.
  repeat split; try reflexivity.
  unfold commands. now rewrite exec_georep_ssh_keygen.
Qed.

(** *** Logging and failure *)

Lemma forallb_passed_filter (failed : result -> bool) (rs : results) :
  forallb (passed failed) rs = true
  <-> filter (fun it => failed (snd it)) rs = [].
Proof.
  unfold passed. induction rs as [|it rs IH]; cbn; [tauto|].
  destruct (failed (snd it)); cbn; [|exact IH].
  split; discriminate.
Qed.

(** X3: a fan-out operation returns false exactly when it logged an error:
    true goes with an empty log, false with at least one entry. *)
Theorem fan_out_false_iff_logged {W : Type} (ex : Executor W) (w : W)
        (op : fan_out_op) (servers : list string) :
  (returned ex w (fan_out_call op servers) = Returned true
   <-> errors ex w (fan_out_call op servers) = [])
  /\ (returned ex w (fan_out_call op servers) = Returned false
      <-> errors ex w (fan_out_call op servers) <> []).
Proof.
  unfold returned, errors. rewrite exec_fan_out_call. cbn [fst snd log].
  set (rs := answers ex w servers (fan_out_command op)).
  pose proof (forallb_passed_filter (fan_out_failed op) rs) as H.
  destruct (forallb (passed (fan_out_failed op)) rs).
  - assert (E : filter (fun it => fan_out_failed op (snd it)) rs = [])
      by now apply H.
    rewrite E. cbn. split; split; try reflexivity; try discriminate.
    intros C. now elim C.
  - destruct (filter (fun it => fan_out_failed op (snd it)) rs) as [|it l].
    + destruct H as [_ H]. specialize (H eq_refl). discriminate.
    + cbn. split; split; try reflexivity; discriminate.
Qed.

(** X4: the two single-host operations that return a boolean never log,
    also when they return false, and call the executor once. *)
Theorem ssh_operations_silent {W : Type} (ex : Executor W) (w : W)
        (mnode tonode user passwd : string) :
  errors ex w (georep_ssh_keygen mnode) = []
  /\ errors ex w (georep_ssh_copyid mnode tonode user passwd) = []
  /\ length (commands ex w (georep_ssh_keygen mnode)) = 1%nat
  /\ length (commands ex w (georep_ssh_copyid mnode tonode user passwd))
     = 1%nat.
Proof.
  unfold errors, commands.
  rewrite exec_georep_ssh_keygen, exec_georep_ssh_copyid.
  repeat split.
Qed.

(** X5: when the executor hands back an empty mapping, each fan-out
    operation returns true and logs nothing, whatever servers it was given:
    a server without a result is not missed. *)
Theorem fan_out_empty_mapping {W : Type} (ex : Executor W) (w : W)
        (op : fan_out_op) (servers : list string) :
  answers ex w servers (fan_out_command op) = [] ->
  returned ex w (fan_out_call op servers) = Returned true
  /\ errors ex w (fan_out_call op servers) = [].
Proof.
  intros E. unfold returned, errors.
  rewrite exec_fan_out_call. cbn [fst snd log]. rewrite E. now split.
Qed.

Lemma fan_out_empty_mapping_witness :
  returned (fixed_executor (0, "", "")%string []) tt
    (georep_groupadd ["slave1"; "slave2"]%string "geogroup") = Returned true
  /\ errors (fixed_executor (0, "", "")%string []) tt
       (georep_groupadd ["slave1"; "slave2"]%string "geogroup") = [].
Proof.
  apply (fan_out_empty_mapping (fixed_executor (0, "", "")%string []) tt
           (OpGroupAdd "geogroup") ["slave1"; "slave2"]%string).
  reflexivity.
Defined.

Lemma forallb_passed_weaker (failed1 failed2 : result -> bool)
      (rs1 rs2 : results) :
  (forall t, failed2 t = true -> failed1 t = true) ->
  incl (triples rs2) (triples rs1) ->
  forallb (passed failed1) rs1 = true ->
  forallb (passed failed2) rs2 = true.
Proof.
  intros Hf Hi. rewrite !forallb_passed_triples, !forallb_forall.
  intros H t Ht. specialize (H t (Hi t Ht)).
  destruct (failed2 t) eqn:E; [|reflexivity].
  now rewrite (Hf t E) in H.
Qed.

Lemma returned_fan_out_call {W : Type} (ex : Executor W) (w : W)
      (op : fan_out_op) (servers : list string) :
  returned ex w (fan_out_call op servers)
  = Returned (forallb (passed (fan_out_failed op))
                (answers ex w servers (fan_out_command op))).
Proof.
  unfold returned. now rewrite exec_fan_out_call.
Qed.

(** X6: a fan-out operation that succeeds on a mapping succeeds on every
    mapping whose triples are among its triples: taking hosts away never
    turns a success into a failure, and adding hosts never hides one. *)
Theorem fan_out_monotone {W1 W2 : Type}
        (ex1 : Executor W1) (ex2 : Executor W2) (w1 : W1) (w2 : W2)
        (op : fan_out_op) (servers1 servers2 : list string) :
  incl (triples (answers ex2 w2 servers2 (fan_out_command op)))
       (triples (answers ex1 w1 servers1 (fan_out_command op))) ->
  returned ex1 w1 (fan_out_call op servers1) = Returned true ->
  returned ex2 w2 (fan_out_call op servers2) = Returned true.
Proof.
  rewrite !returned_fan_out_call. intros Hi [= H]. f_equal.
  now apply (forallb_passed_weaker (fan_out_failed op) (fan_out_failed op)
               _ _ (fun t E => E) Hi).
Qed.

Lemma fan_out_monotone_witness :
  returned (fixed_executor (0, "", "")%string [("slave2", (9, "", "groupadd: group already exists"))]%string) tt
    (georep_groupadd ["slave2"]%string "geogroup") = Returned true.
Proof.
  apply (fan_out_monotone
           (fixed_executor (0, "", "")%string slaves_exempt)
           (fixed_executor (0, "", "")%string [("slave2", (9, "", "groupadd: group already exists"))]%string)
           tt tt (OpGroupAdd "geogroup")
           ["slave1"; "slave2"]%string ["slave2"]%string).
  - intros t [<-|[]]. right; left; reflexivity.
  - reflexivity.
Defined.

(** X7: setting the password is at least as strict as creating the group or
    the user: on per-host triples among those the password-set operation
    accepted, every fan-out operation returns true. *)
Theorem setpasswd_strictest {W1 W2 : Type}
        (ex1 : Executor W1) (ex2 : Executor W2) (w1 : W1) (w2 : W2)
        (groupname groupaccount passwd : string) (op : fan_out_op)
        (servers1 servers2 : list string) :
  incl (triples (answers ex2 w2 servers2 (fan_out_command op)))
       (triples (answers ex1 w1 servers1
                   (fan_out_command
                      (OpSetPasswd groupname groupaccount passwd)))) ->
  returned ex1 w1
    (georep_geoaccount_setpasswd servers1 groupname groupaccount passwd)
  = Returned true ->
  returned ex2 w2 (fan_out_call op servers2) = Returned true.
Proof.
  change (georep_geoaccount_setpasswd servers1 groupname groupaccount passwd)
    with (fan_out_call (OpSetPasswd groupname groupaccount passwd) servers1).
  rewrite !returned_fan_out_call. intros Hi [= H]. f_equal.
  refine (forallb_passed_weaker _ _ _ _ _ Hi H).
  intros t. destruct op; cbn [fan_out_failed]; unfold create_failed,
    setpasswd_failed; destruct (negb (status t =? 0)); cbn; auto.
Qed.

Lemma setpasswd_strictest_witness :
  returned (fixed_executor (0, "", "")%string [("slave1", (0, "", ""))]%string) tt
    (georep_geoaccount ["slave1"]%string "geogroup" "geoaccount")
  = Returned true.
Proof.
  apply (setpasswd_strictest
           (fixed_executor (0, "", "")%string [("slave1", (0, "", ""))]%string)
           (fixed_executor (0, "", "")%string [("slave1", (0, "", ""))]%string)
           tt tt "geogroup" "geoaccount" "secret"
           (OpGeoAccount "geogroup" "geoaccount")
           ["slave1"]%string ["slave1"]%string).
  - intros t Ht. exact Ht.
  - reflexivity.
Defined.

(** *** The force flag and the unused group *)

(** X8: for create, start and stop, the force flag only adds the word
    [force] at the end: the forced command is the unforced one followed by
    a space and [force], with or without a user. *)
Theorem force_appends_word {W : Type} (ex : Executor W) (w : W)
        (mnode mastervol slaveip slavevol : string) (user : option string) :
  let forced (f : bool -> prog result) :=
    exists cmd : string,
      commands ex w (f false) = [CallRun mnode cmd]
      /\ commands ex w (f true) = [CallRun mnode (cmd ++ " force")] in
  forced (georep_create mnode mastervol slaveip slavevol user)
  /\ forced (georep_start mnode mastervol slaveip slavevol user)
  /\ forced (georep_stop mnode mastervol slaveip slavevol user).
Proof.
  cbv zeta.
  change (georep_create mnode mastervol slaveip slavevol user)
    with (fun f => session_call (OpCreate f) mnode mastervol slaveip slavevol
                     user).
  change (georep_start mnode mastervol slaveip slavevol user)
    with (fun f => session_call (OpStart f) mnode mastervol slaveip slavevol
                     user).
  change (georep_stop mnode mastervol slaveip slavevol user)
    with (fun f => session_call (OpStop f) mnode mastervol slaveip slavevol
                     user).
  cbv beta. rewrite !commands_session.
  repeat split; eexists; (split; [reflexivity|]);
    unfold session_command; cbn [session_words with_force];
    now rewrite !append_assoc.
Qed.

(** X9: the group name given to the password-set operation is not used: the
    value returned, the command run and the log are the same for any two
    group names. *)
Theorem setpasswd_ignores_groupname {W : Type} (ex : Executor W) (w : W)
        (servers : list string) (groupname1 groupname2 groupaccount passwd
                                 : string) :
  exec ex
    (georep_geoaccount_setpasswd servers groupname1 groupaccount passwd)
    (init w)
  = exec ex
      (georep_geoaccount_setpasswd servers groupname2 groupaccount passwd)
      (init w).
Proof.
  now rewrite !exec_georep_geoaccount_setpasswd.
Qed.

(** *** Reading a session command back *)

Lemma free_of_append (bad : ascii -> bool) (a b : string) :
  free_of bad (a ++ b) = free_of bad a && free_of bad b.
Proof.
  induction a as [|c a IH]; cbn; [reflexivity|].
  now rewrite IH, andb_assoc.
Qed.

Lemma free_of_weaken (bad1 bad2 : ascii -> bool) (s : string) :
  (forall c, bad1 c = true -> bad2 c = true) ->
  free_of bad2 s = true -> free_of bad1 s = true.
Proof.
  intros Hb. induction s as [|c s IH]; cbn; [reflexivity|].
  intros H. apply andb_prop in H as [Hc Hs].
  rewrite (IH Hs), andb_true_r.
  destruct (bad1 c) eqn:E; [|reflexivity].
  now rewrite (Hb c E) in Hc.
Qed.

Lemma delim_space (c : ascii) : is_space c = true -> is_delim c = true.
Proof.
  unfold is_delim. now intros ->.
Qed.

(** Two strings free of separators, each followed by a separator, agree as
    soon as the whole strings do. *)
Lemma split_at_bad (bad : ascii -> bool) (a a' : string) :
  forall (d d' : ascii) (r r' : string),
    free_of bad a = true -> free_of bad a' = true ->
    bad d = true -> bad d' = true ->
    (a ++ String d r)%string = (a' ++ String d' r')%string ->
    a = a' /\ d = d' /\ r = r'.
Proof.
  revert a'. induction a as [|c a IH]; intros [|c' a'] d d' r r' Ha Ha' Hd Hd';
    cbn in *; intros [= E1 E2].
  - now subst.
  - subst c'. now rewrite Hd in Ha'.
  - subst c. now rewrite Hd' in Ha.
  - subst c'. apply andb_prop in Ha as [_ Ha]. apply andb_prop in Ha' as [_ Ha'].
    destruct (IH a' d d' r r' Ha Ha' Hd Hd' E2) as (-> & -> & ->). auto.
Qed.

Lemma session_words_inj (op op' : session_op) :
  session_words op = session_words op' -> op = op'.
Proof.
  destruct op as [|[]|[]|[]| | |], op' as [|[]|[]|[]| | |]; cbn;
    intros H; try reflexivity; discriminate H.
Qed.

Lemma wf_session_parts (mastervol slaveip slavevol : string)
      (user : option string) :
  wf_session mastervol slaveip slavevol user = true ->
  free_of is_space mastervol = true
  /\ free_of is_delim slaveip = true
  /\ free_of is_space slavevol = true
  /\ (forall u, effective_user user = Some u -> free_of is_delim u = true).
Proof.
  unfold wf_session. intros H.
  apply andb_prop in H as [H Hu]. apply andb_prop in H as [H Hv].
  apply andb_prop in H as [Hm Hh]. repeat split; auto.
  intros u E. destruct user as [[|c s]|]; cbn in E; try discriminate.
  now injection E as <-.
Qed.

Lemma endpoint_free_of_space (mastervol slaveip slavevol : string)
      (user : option string) :
  wf_session mastervol slaveip slavevol user = true ->
  free_of is_space (endpoint user slaveip slavevol) = true.
Proof.
  intros H. apply wf_session_parts in H as (_ & Hh & Hv & Hu).
  assert (Hh' := free_of_weaken is_space is_delim _ delim_space Hh).
  unfold endpoint. destruct (effective_user user) as [u|].
  - assert (Hu' := free_of_weaken is_space is_delim _ delim_space
                     (Hu u eq_refl)).
    rewrite !free_of_append, Hu', Hh', Hv. reflexivity.
  - rewrite !free_of_append, Hh', Hv. reflexivity.
Qed.

Lemma endpoint_inj (mastervol slaveip slavevol mastervol' slaveip' slavevol'
                      : string) (user user' : option string) :
  wf_session mastervol slaveip slavevol user = true ->
  wf_session mastervol' slaveip' slavevol' user' = true ->
  endpoint user slaveip slavevol = endpoint user' slaveip' slavevol' ->
  effective_user user = effective_user user'
  /\ slaveip = slaveip' /\ slavevol = slavevol'.
Proof.
  intros H H'.
  apply wf_session_parts in H as (_ & Hh & _ & Hu).
  apply wf_session_parts in H' as (_ & Hh' & _ & Hu').
  unfold endpoint.
  destruct (effective_user user) as [u|], (effective_user user') as [u'|];
    cbn [append]; intros E.
  - apply split_at_bad with (bad := is_delim) in E as (-> & _ & E);
      auto.
    apply split_at_bad with (bad := is_delim) in E as (-> & _ & [= ->]);
      auto.
  - apply split_at_bad with (bad := is_delim) in E as (_ & C & _); auto.
    discriminate C.
  - apply split_at_bad with (bad := is_delim) in E as (_ & C & _); auto.
    discriminate C.
  - apply split_at_bad with (bad := is_delim) in E as (-> & _ & [= ->]);
      auto.
Qed.

(** X10: a session command can be read back.  For volume names without
    spaces and a host and user without spaces, [@] and [:], two session calls
    that hand the executor the same call agree on the node, the operation
    with its force flag, the master volume, the slave host, the slave volume
    and the user (no user and the empty user being the same). *)
Theorem session_command_injective {W1 W2 : Type}
        (ex1 : Executor W1) (ex2 : Executor W2) (w1 : W1) (w2 : W2)
        (op op' : session_op)
        (mnode mastervol slaveip slavevol : string) (user : option string)
        (mnode' mastervol' slaveip' slavevol' : string)
        (user' : option string) :
  wf_session mastervol slaveip slavevol user = true ->
  wf_session mastervol' slaveip' slavevol' user' = true ->
  commands ex1 w1 (session_call op mnode mastervol slaveip slavevol user)
  = commands ex2 w2
      (session_call op' mnode' mastervol' slaveip' slavevol' user') ->
  mnode = mnode' /\ op = op' /\ mastervol = mastervol'
  /\ slaveip = slaveip' /\ slavevol = slavevol'
  /\ effective_user user = effective_user user'.
Proof.
  intros H H'. rewrite !commands_session. intros [= Hn Hc].
  pose proof (endpoint_free_of_space _ _ _ _ H) as He.
  pose proof (endpoint_free_of_space _ _ _ _ H') as He'.
  pose proof (wf_session_parts _ _ _ _ H) as (Hm & _).
  pose proof (wf_session_parts _ _ _ _ H') as (Hm' & _).
  apply split_at_bad with (bad := is_space) in Hc as (Em & _ & Hc); auto.
  apply split_at_bad with (bad := is_space) in Hc as (Ee & _ & Ew); auto.
  apply session_words_inj in Ew.
  destruct (endpoint_inj _ _ _ _ _ _ _ _ H H' Ee) as (Eu & Eh & Ev).
  auto 10.
Qed.

Lemma session_command_injective_witness :
  OpStart true = OpStart true
  /\ effective_user (Some ""%string) = effective_user None.
Proof.
  pose proof (session_command_injective
                (fixed_executor (0, "", "")%string [])
                (fixed_executor (0, "", "")%string [])
                tt tt (OpStart true) (OpStart true)
                "master1" "mvol" "slave1" "svol" (Some "")
                "master1" "mvol" "slave1" "svol" None
                eq_refl eq_refl eq_refl)%string
    as (_ & Eop & _ & _ & _ & Eu).
  exact (conj Eop Eu).
Defined.
